(** * The HFP mSBC decoder wrapper (system/stack/btm/hfp_msbc_decoder.cc)

    A shallow embedding of the three entry points of the wrapper,
    [hfp_msbc_decoder_init], [hfp_msbc_decoder_cleanup] and
    [hfp_msbc_decoder_decode_packet], over the file-static object
    [hfp_msbc_decoder].  The sub-band codec engine (embdrv/sbc/decoder) is
    an external collaborator: its three entry points, the declarations of
    its headers that the wrapper uses and the size of its opaque context
    are taken as an interface ([SbcDecls], [SbcEngine]); every theorem
    about the wrapper holds for every implementation of that interface. *)

From Stdlib Require Import ZArith List String Lia.
From stdpp Require Import base list vector.

Local Open Scope Z_scope.

(** ** C scalar types

    Fixed-width integers are carried as [Z]; the wrapper does no arithmetic
    on them, it only stores constants and compares for equality. *)

Definition uint8_t := Z.
Definition uint32_t := Z.
Definition int16_t := Z.
Definition OI_BYTE := uint8_t.
Definition OI_BOOL := bool.
(** [OI_STATUS] is an enumeration (oi_status.h), carried as its integer. *)
Definition OI_STATUS := Z.

Definition sizeof_uint8_t : Z := 1.
Definition sizeof_int16_t : Z := 2.
Definition sizeof_uint32_t : Z := 4.

(** [#define HFP_MSBC_PKT_LEN 60] *)
Definition HFP_MSBC_PKT_LEN : Z := 60.

(** Number of elements of [int16_t decode_buf[120]]. *)
Definition decode_buf_len : nat := 120.

(** ** What the wrapper takes from the engine's headers

    oi_codec_sbc.h and oi_status.h belong to the engine, not to the
    wrapper: the size of the opaque decoder context, the sizing macro
    [CODEC_DATA_WORDS], the constant [SBC_CODEC_FAST_FILTER_BUFFERS] and
    the status test [OI_SUCCESS] are parameters. *)

Class SbcDecls := {
  (** [sizeof(OI_CODEC_SBC_DECODER_CONTEXT)], in bytes *)
  sizeof_decoder_context : nat;
  (** [CODEC_DATA_WORDS(numChannels, numBuffers)], in 32-bit words *)
  CODEC_DATA_WORDS : nat -> nat -> nat;
  SBC_CODEC_FAST_FILTER_BUFFERS : nat;
  (** the macro [OI_SUCCESS(status)] *)
  OI_SUCCESS : OI_STATUS -> bool
}.

Section Object.
Context {D : SbcDecls}.

(** The opaque engine context, as the bytes of its object representation. *)
Definition OI_CODEC_SBC_DECODER_CONTEXT : Type :=
  vec uint8_t sizeof_decoder_context.

(** Element count of
    [uint32_t context_data[CODEC_DATA_WORDS(2, SBC_CODEC_FAST_FILTER_BUFFERS)]]. *)
Definition context_data_len : nat :=
  CODEC_DATA_WORDS 2 SBC_CODEC_FAST_FILTER_BUFFERS.

(** [typedef struct { ... } tHFP_MSBC_DECODER;] *)
Record tHFP_MSBC_DECODER : Type := {
  decoder_context : OI_CODEC_SBC_DECODER_CONTEXT;
  context_data : vec uint32_t context_data_len;
  decode_buf : vec int16_t decode_buf_len
}.

(** [sizeof(hfp_msbc_decoder.context_data)] *)
Definition sizeof_context_data : Z :=
  sizeof_uint32_t * Z.of_nat context_data_len.

(** [sizeof(hfp_msbc_decoder.decode_buf)] *)
Definition sizeof_decode_buf : Z :=
  sizeof_int16_t * Z.of_nat decode_buf_len.

(** [sizeof(hfp_msbc_decoder)], the members laid out without padding. *)
Definition sizeof_hfp_msbc_decoder : Z :=
  Z.of_nat sizeof_decoder_context + sizeof_context_data + sizeof_decode_buf.

(** *** Object representation

    The bytes of a 32-bit word and of a 16-bit sample, least significant
    first, and the bytes of the whole object, member after member. *)
Definition byte_of (v : Z) (k : Z) : uint8_t :=
  Z.land (Z.shiftr v (8 * k)) 255.

Definition bytes_of_uint32 (v : uint32_t) : list uint8_t :=
  [byte_of v 0; byte_of v 1; byte_of v 2; byte_of v 3].

Definition bytes_of_int16 (v : int16_t) : list uint8_t :=
  [byte_of v 0; byte_of v 1].

Definition decode_buf_bytes (s : tHFP_MSBC_DECODER) : list uint8_t :=
  flat_map bytes_of_int16 (vec_to_list (decode_buf s)).

Definition object_bytes (s : tHFP_MSBC_DECODER) : list uint8_t :=
  vec_to_list (decoder_context s)
  ++ flat_map bytes_of_uint32 (vec_to_list (context_data s))
  ++ decode_buf_bytes s.

(** The object with every byte zero: what static initialisation and
    [memset(&hfp_msbc_decoder, 0, sizeof(hfp_msbc_decoder))] leave. *)
Definition zeroed : tHFP_MSBC_DECODER := {|
  decoder_context := vreplicate sizeof_decoder_context 0;
  context_data := vreplicate context_data_len 0;
  decode_buf := vreplicate decode_buf_len 0
|}.
End Object.

(** ** Pointers

    The addresses the wrapper hands out or receives: the three members of
    the static object, the null pointer, and addresses of caller memory. *)

Inductive pointer : Type :=
| NULL
| addr_decoder_context   (* &hfp_msbc_decoder.decoder_context *)
| addr_context_data      (* hfp_msbc_decoder.context_data *)
| addr_decode_buf        (* hfp_msbc_decoder.decode_buf *)
| addr_caller (a : Z).   (* memory owned by the caller *)

(** ** The engine's entry points

    Each entry point is a function of the memory it is given and returns
    that memory as it leaves it, with the values it stores through its
    in/out pointers.  After a reset the context keeps pointers into
    [context_data], so every entry point that receives the context can
    reach the scratch memory too. *)

Section Replies.
Context {D : SbcDecls}.

Record ResetReply : Type := {
  reset_status : OI_STATUS;
  reset_context : OI_CODEC_SBC_DECODER_CONTEXT;
  reset_data : vec uint32_t context_data_len
}.

Record ConfigureReply : Type := {
  configure_status : OI_STATUS;
  configure_context : OI_CODEC_SBC_DECODER_CONTEXT;
  configure_data : vec uint32_t context_data_len
}.

Record DecodeReply : Type := {
  decode_status : OI_STATUS;
  decode_context : OI_CODEC_SBC_DECODER_CONTEXT;
  decode_data : vec uint32_t context_data_len;
  (** how far [*frameData] was advanced *)
  decode_frameData : Z;
  (** [*frameBytes] on return: input bytes remaining *)
  decode_frameBytes : uint32_t;
  (** the samples at [pcmData] on return *)
  decode_pcmData : vec int16_t decode_buf_len;
  (** [*pcmBytes] on return: output bytes written *)
  decode_pcmBytes : uint32_t
}.
End Replies.

Class SbcEngine {D : SbcDecls} := {
  (** [OI_CODEC_SBC_DecoderReset(context, decoderData, decoderDataBytes,
      maxChannels, pcmStride, enhanced)] *)
  OI_CODEC_SBC_DecoderReset :
    OI_CODEC_SBC_DECODER_CONTEXT -> vec uint32_t context_data_len ->
    uint32_t -> uint8_t -> uint8_t -> OI_BOOL -> ResetReply;
  (** [OI_CODEC_SBC_DecoderConfigureMSbc(context)] *)
  OI_CODEC_SBC_DecoderConfigureMSbc :
    OI_CODEC_SBC_DECODER_CONTEXT -> vec uint32_t context_data_len ->
    ConfigureReply;
  (** [OI_CODEC_SBC_DecodeFrame(context, frameData, frameBytes, pcmData,
      pcmBytes)]: the bytes at [*frameData], the value of [*frameBytes], the
      samples at [pcmData] and the value of [*pcmBytes] on entry *)
  OI_CODEC_SBC_DecodeFrame :
    OI_CODEC_SBC_DECODER_CONTEXT -> vec uint32_t context_data_len ->
    list OI_BYTE -> uint32_t -> vec int16_t decode_buf_len -> uint32_t ->
    DecodeReply
}.

(** ** Observable events: engine calls, with their arguments, and log lines *)

Inductive Event : Type :=
| EvDecoderReset (context decoderData : pointer) (decoderDataBytes : uint32_t)
                 (maxChannels pcmStride : uint8_t) (enhanced : OI_BOOL)
| EvDecoderConfigureMSbc (context : pointer)
| EvDecodeFrame (context : pointer) (frameData : list OI_BYTE)
                (frameBytes : uint32_t) (pcmData : pointer)
                (pcmBytes : uint32_t)
| EvLogError (format : string) (args : list Z).


Definition is_DecoderReset (e : Event) : bool :=
  match e with EvDecoderReset _ _ _ _ _ _ => true | _ => false end.

Definition is_DecoderConfigureMSbc (e : Event) : bool :=
  match e with EvDecoderConfigureMSbc _ => true | _ => false end.

Definition count_events (p : Event -> bool) (l : list Event) : nat :=
  List.length (List.filter p l).

(** ** The wrapper

    A computation reads and updates the static object and emits events. *)

Section Wrapper.
Context {D : SbcDecls} {E : SbcEngine}.

Record Outcome (A : Type) : Type := {
  value : A;
  state : tHFP_MSBC_DECODER;
  events : list Event
}.
Arguments value {A}.
Arguments state {A}.
Arguments events {A}.

Definition M (A : Type) : Type := tHFP_MSBC_DECODER -> Outcome A.

Definition ret {A} (a : A) : M A :=
  fun s => {| value := a; state := s; events := [] |}.

Definition bind {A B} (m : M A) (k : A -> M B) : M B :=
  fun s =>
    let r := m s in
    let r' := k (value r) (state r) in
    {| value := value r'; state := state r';
       events := events r ++ events r' |}.

Notation "x <- m ;; k" := (bind m (fun x => k))
  (at level 100, m at next level, right associativity).
Notation "m ;;; k" := (bind m (fun _ => k))
  (at level 100, right associativity).

Definition LOG_ERROR (format : string) (args : list Z) : M unit :=
  fun s => {| value := tt; state := s; events := [EvLogError format args] |}.

(** The call at lines 40-42: the context and the scratch memory of the
    static object are handed to the engine. *)
Definition call_DecoderReset (decoderDataBytes : uint32_t)
    (maxChannels pcmStride : uint8_t) (enhanced : OI_BOOL) : M OI_STATUS :=
  fun s =>
    let r := OI_CODEC_SBC_DecoderReset (decoder_context s) (context_data s)
               decoderDataBytes maxChannels pcmStride enhanced in
    {| value := reset_status r;
       state := {| decoder_context := reset_context r;
                   context_data := reset_data r;
                   decode_buf := decode_buf s |};
       events := [EvDecoderReset addr_decoder_context addr_context_data
                    decoderDataBytes maxChannels pcmStride enhanced] |}.

(** The call at line 49. *)
Definition call_DecoderConfigureMSbc : M OI_STATUS :=
  fun s =>
    let r := OI_CODEC_SBC_DecoderConfigureMSbc (decoder_context s)
               (context_data s) in
    {| value := configure_status r;
       state := {| decoder_context := configure_context r;
                   context_data := configure_data r;
                   decode_buf := decode_buf s |};
       events := [EvDecoderConfigureMSbc addr_decoder_context] |}.

(** The call at lines 74-76, with [out_ptr = hfp_msbc_decoder.decode_buf];
    it yields the status and the values left in [oi_size] and
    [out_avail]. *)
Definition call_DecodeFrame (oi_data : list OI_BYTE)
    (oi_size out_avail : uint32_t) : M (OI_STATUS * uint32_t * uint32_t) :=
  fun s =>
    let r := OI_CODEC_SBC_DecodeFrame (decoder_context s) (context_data s)
               oi_data oi_size (decode_buf s) out_avail in
    {| value := (decode_status r, decode_frameBytes r, decode_pcmBytes r);
       state := {| decoder_context := decode_context r;
                   context_data := decode_data r;
                   decode_buf := decode_pcmData r |};
       events := [EvDecodeFrame addr_decoder_context oi_data oi_size
                    addr_decode_buf out_avail] |}.

(** [bool hfp_msbc_decoder_init()] *)
Definition hfp_msbc_decoder_init : M bool :=
  status <- call_DecoderReset sizeof_context_data 1 1 false ;;
  if negb (OI_SUCCESS status) then
    LOG_ERROR "%s: OI_CODEC_SBC_DecoderReset failed with error code %d"
      [status] ;;;
    ret false
  else
    status <- call_DecoderConfigureMSbc ;;
    if negb (OI_SUCCESS status) then
      LOG_ERROR
        "%s: OI_CODEC_SBC_DecoderConfigureMSbc failed with error code %d"
        [status] ;;;
      ret false
    else
      ret true.

(** [void hfp_msbc_decoder_cleanup(void)] *)
Definition hfp_msbc_decoder_cleanup : M unit :=
  fun _ => {| value := tt; state := zeroed; events := [] |}.

(** [bool hfp_msbc_decoder_decode_packet(const uint8_t* i_buf,
    const uint8_t** o_buf)].  [i_buf] is the caller's memory at the input
    pointer, however long it is; [o_buf] is the value of [*o_buf] on
    entry, and the second component of the result its value on return. *)
Definition hfp_msbc_decoder_decode_packet (i_buf : list uint8_t)
    (o_buf : pointer) : M (bool * pointer) :=
  let oi_data := i_buf in
  let oi_size := HFP_MSBC_PKT_LEN in
  let out_avail := sizeof_decode_buf in
  r <- call_DecodeFrame oi_data oi_size out_avail ;;
  let '(status, oi_size, out_avail) := r in
  if negb (OI_SUCCESS status) || negb (out_avail =? 240)
     || negb (oi_size =? 0) then
    LOG_ERROR "Decoding failure: %d, %lu, %lu" [status; out_avail; oi_size] ;;;
    ret (false, o_buf)
  else
    ret (true, addr_decode_buf).

(** What a caller reads through a pointer into the static object. *)
Definition load (s : tHFP_MSBC_DECODER) (p : pointer)
  : option (list uint8_t) :=
  match p with
  | addr_decode_buf => Some (decode_buf_bytes s)
  | addr_decoder_context => Some (vec_to_list (decoder_context s))
  | addr_context_data =>
      Some (flat_map bytes_of_uint32 (vec_to_list (context_data s)))
  | NULL | addr_caller _ => None
  end.
End Wrapper.

Arguments value {D A}.
Arguments state {D A}.
Arguments events {D A}.

(** ** Call sequences

    The sequence the repeatability property is about, and the replies of
    the engine calls the entry points make. *)

Section Lifecycle.
Context {D : SbcDecls} {E : SbcEngine}.

(** [hfp_msbc_decoder_cleanup(); hfp_msbc_decoder_init();
    hfp_msbc_decoder_decode_packet(i_buf, &out)]: the result of the
    initialisation and the result of the decode. *)
Definition fresh_decode (i_buf : list uint8_t) (o_buf : pointer)
  : M (bool * (bool * pointer)) :=
  bind hfp_msbc_decoder_cleanup (fun _ =>
  bind hfp_msbc_decoder_init (fun ok =>
  bind (hfp_msbc_decoder_decode_packet i_buf o_buf) (fun r =>
  ret (ok, r)))).

(** The reply of the one engine call that [hfp_msbc_decoder_decode_packet]
    makes in state [s] on the caller's buffer [i_buf]. *)
Definition frame_reply (s : tHFP_MSBC_DECODER) (i_buf : list uint8_t)
  : DecodeReply :=
  OI_CODEC_SBC_DecodeFrame (decoder_context s) (context_data s) i_buf
    HFP_MSBC_PKT_LEN (decode_buf s) sizeof_decode_buf.

(** The test of line 77, negated: the reply is accepted. *)
Definition accepted (r : DecodeReply) : bool :=
  OI_SUCCESS (decode_status r) && (decode_pcmBytes r =? 240)
  && (decode_frameBytes r =? 0).

(** The replies of the two engine calls of [hfp_msbc_decoder_init]. *)
Definition reset_reply (s : tHFP_MSBC_DECODER) : ResetReply :=
  OI_CODEC_SBC_DecoderReset (decoder_context s) (context_data s)
    sizeof_context_data 1 1 false.

Definition configure_reply (s : tHFP_MSBC_DECODER) : ConfigureReply :=
  OI_CODEC_SBC_DecoderConfigureMSbc (reset_context (reset_reply s))
    (reset_data (reset_reply s)).

(** The engine calls among the events, log lines left out. *)
Definition is_engine_call (e : Event) : bool :=
  match e with EvLogError _ _ => false | _ => true end.

Definition engine_calls (l : list Event) : list Event :=
  List.filter is_engine_call l.
End Lifecycle.

(** ** Sequences of calls

    A caller making any sequence of calls of the three entry points, with
    one output variable [out] whose address it passes to every
    [hfp_msbc_decoder_decode_packet]. *)

Inductive ApiCall : Type :=
| ApiInit                              (* hfp_msbc_decoder_init() *)
| ApiCleanup                           (* hfp_msbc_decoder_cleanup() *)
| ApiDecode (i_buf : list uint8_t).    (* hfp_msbc_decoder_decode_packet(i_buf, &out) *)



Definition is_log (e : Event) : bool :=
  match e with EvLogError _ _ => true | _ => false end.

(** A call that returned false. *)
Definition is_failure (r : option bool) : bool :=
  match r with Some false => true | _ => false end.

(** A decode that returned true. *)
Definition decode_succeeded (cr : ApiCall * option bool) : bool :=
  match cr with (ApiDecode _, Some true) => true | _ => false end.

(** The order of events: an mSBC configuration comes right after a reset,
    a log line right after an engine call.  [prev] is the event before
    [l], if any. *)
Definition may_follow (prev : option Event) (e : Event) : bool :=
  match e with
  | EvDecoderConfigureMSbc _ =>
      match prev with Some p => is_DecoderReset p | None => false end
  | EvLogError _ _ =>
      match prev with Some p => is_engine_call p | None => false end
  | _ => true
  end.

Fixpoint in_order (prev : option Event) (l : list Event) : bool :=
  match l with
  | [] => true
  | e :: l' => may_follow prev e && in_order (Some e) l'
  end.

Fixpoint last_event (prev : option Event) (l : list Event) : option Event :=
  match l with
  | [] => prev
  | e :: l' => last_event (Some e) l'
  end.

Section Callers.
Context {D : SbcDecls} {E : SbcEngine}.

(** One call: its boolean result ([None] for the void cleanup) and the
    value of [out] after it. *)
Definition api_call (c : ApiCall) (out : pointer)
  : M (option bool * pointer) :=
  match c with
  | ApiInit =>
      bind hfp_msbc_decoder_init (fun ok => ret (Some ok, out))
  | ApiCleanup =>
      bind hfp_msbc_decoder_cleanup (fun _ => ret (None, out))
  | ApiDecode i_buf =>
      bind (hfp_msbc_decoder_decode_packet i_buf out)
        (fun r => ret (Some (fst r), snd r))
  end.

(** The calls in order: their results, one per call, and the final value
    of [out]. *)
Fixpoint run (calls : list ApiCall) (out : pointer)
  : M (list (option bool) * pointer) :=
  match calls with
  | [] => ret ([], out)
  | c :: rest =>
      bind (api_call c out) (fun r =>
      bind (run rest (snd r)) (fun rs =>
      ret (fst r :: fst rs, snd rs)))
  end.
End Callers.

(** ** A sample engine

    The wrapper does not contain the engine (embdrv/sbc/decoder).  To run
    the wrapper on concrete packets, the interface is instantiated with a
    small stand-in:
    a four-byte context [maxChannels; pcmStride; enhanced; mSbcEnabled], the
    SBC sizing formula (16 blocks, 8 subbands, 2 channels, 16-bit filter
    buffers), and a decode step that accepts a packet starting with the
    mSBC syncword 0xAD and fills the output with the packet's second
    byte. *)

Module Sample.
Definition SBC_MAX_BLOCKS : nat := 16.
Definition SBC_MAX_BANDS : nat := 8.
Definition SBC_MAX_CHANNELS : nat := 2.
Definition SBC_CODEC_MIN_FILTER_BUFFERS : nat := 16.

Definition codec_data_words (numChannels numBuffers : nat) : nat :=
  ((4 * SBC_MAX_BLOCKS * numChannels * SBC_MAX_BANDS
    + 2 * SBC_MAX_CHANNELS * SBC_MAX_BANDS * numBuffers
    + (4 - 1)) / 4)%nat.

Definition OI_OK : OI_STATUS := 0.
Definition OI_STATUS_INVALID_PARAMETERS : OI_STATUS := 101.
Definition OI_STATUS_OUT_OF_MEMORY : OI_STATUS := 106.
Definition OI_CODEC_SBC_NO_SYNCWORD : OI_STATUS := 1401.
Definition OI_CODEC_SBC_NOT_ENOUGH_BODY_DATA : OI_STATUS := 1403.
Definition OI_CODEC_SBC_NOT_ENOUGH_AUDIO_DATA : OI_STATUS := 1404.
Definition OI_mSBC_SYNCWORD : OI_BYTE := 0xad.

#[local] Instance decls : SbcDecls := {|
  sizeof_decoder_context := 4;
  CODEC_DATA_WORDS := codec_data_words;
  SBC_CODEC_FAST_FILTER_BUFFERS := 27;
  OI_SUCCESS := fun status => status =? OI_OK
|}.

Definition min_data_bytes (maxChannels : Z) : Z :=
  4 * 16 * 8 * maxChannels + 2 * 8 * maxChannels * 16.

Definition reset (ctx : OI_CODEC_SBC_DECODER_CONTEXT)
    (data : vec uint32_t context_data_len) (decoderDataBytes : uint32_t)
    (maxChannels pcmStride : uint8_t) (enhanced : OI_BOOL) : ResetReply :=
  if negb ((1 <=? maxChannels) && (maxChannels <=? 2)
           && (1 <=? pcmStride) && (pcmStride <=? maxChannels))
  then {| reset_status := OI_STATUS_INVALID_PARAMETERS;
          reset_context := ctx; reset_data := data |}
  else if decoderDataBytes <? min_data_bytes maxChannels
  then {| reset_status := OI_STATUS_OUT_OF_MEMORY;
          reset_context := ctx; reset_data := data |}
  else {| reset_status := OI_OK;
          reset_context :=
            [# maxChannels; pcmStride; if enhanced then 1 else 0; 0];
          reset_data := vreplicate context_data_len 0 |}.

Definition configure_msbc (ctx : OI_CODEC_SBC_DECODER_CONTEXT)
    (data : vec uint32_t context_data_len) : ConfigureReply :=
  {| configure_status := OI_OK;
     configure_context := vinsert 3%fin 1 ctx;
     configure_data := data |}.

Definition decode_failed (status : OI_STATUS)
    (ctx : OI_CODEC_SBC_DECODER_CONTEXT)
    (data : vec uint32_t context_data_len) (frameBytes : uint32_t)
    (pcm : vec int16_t decode_buf_len) (pcmBytes : uint32_t) : DecodeReply :=
  {| decode_status := status; decode_context := ctx; decode_data := data;
     decode_frameData := 0; decode_frameBytes := frameBytes;
     decode_pcmData := pcm; decode_pcmBytes := pcmBytes |}.

(** The frame body: taken whatever the context holds. *)
Definition decode_body (ctx : OI_CODEC_SBC_DECODER_CONTEXT)
    (data : vec uint32_t context_data_len) (frame : list OI_BYTE)
    (frameBytes : uint32_t) (pcm : vec int16_t decode_buf_len)
    (pcmBytes : uint32_t) : DecodeReply :=
  match frame with
  | sync :: sample :: _ =>
      if negb (sync =? OI_mSBC_SYNCWORD) then
        decode_failed OI_CODEC_SBC_NO_SYNCWORD ctx data frameBytes pcm pcmBytes
      else if frameBytes <? 60 then
        decode_failed OI_CODEC_SBC_NOT_ENOUGH_BODY_DATA ctx data frameBytes
          pcm pcmBytes
      else if pcmBytes <? 240 then
        decode_failed OI_CODEC_SBC_NOT_ENOUGH_AUDIO_DATA ctx data frameBytes
          pcm pcmBytes
      else
        {| decode_status := OI_OK; decode_context := ctx;
           decode_data := data;
           decode_frameData := 60; decode_frameBytes := frameBytes - 60;
           decode_pcmData := vreplicate decode_buf_len sample;
           decode_pcmBytes := 240 |}
  | _ =>
      decode_failed OI_CODEC_SBC_NO_SYNCWORD ctx data frameBytes pcm pcmBytes
  end.

(** A decode step that first checks that the context was reset and
    configured for mSBC. *)
Definition decode_frame (ctx : OI_CODEC_SBC_DECODER_CONTEXT)
    (data : vec uint32_t context_data_len) (frame : list OI_BYTE)
    (frameBytes : uint32_t) (pcm : vec int16_t decode_buf_len)
    (pcmBytes : uint32_t) : DecodeReply :=
  if (ctx !!! 0%fin =? 0) || negb (ctx !!! 3%fin =? 1) then
    decode_failed OI_STATUS_INVALID_PARAMETERS ctx data frameBytes pcm
      pcmBytes
  else decode_body ctx data frame frameBytes pcm pcmBytes.

(** The stand-in engine. *)
Definition engine : SbcEngine := {|
  OI_CODEC_SBC_DecoderReset := reset;
  OI_CODEC_SBC_DecoderConfigureMSbc := configure_msbc;
  OI_CODEC_SBC_DecodeFrame := decode_frame
|}.

(** A packet of 60 bytes: the syncword, then 59 bytes of value 7. *)
Definition packet : list uint8_t :=
  OI_mSBC_SYNCWORD :: List.repeat 7 59.

(** A packet of 60 bytes without the syncword. *)
Definition noise : list uint8_t := List.repeat 0 60.

(** The object after a successful initialisation with the stand-in. *)
Definition ready : tHFP_MSBC_DECODER :=
  state (@hfp_msbc_decoder_init decls engine zeroed).
End Sample.

(** * Properties *)

Section WrapperFacts.
Context {D : SbcDecls} {E : SbcEngine}.

Lemma sizeof_decode_buf_240 : sizeof_decode_buf = 240.
Proof. reflexivity. Qed.

Lemma line77_test (r : DecodeReply) :
  negb (OI_SUCCESS (decode_status r)) || negb (decode_pcmBytes r =? 240)
  || negb (decode_frameBytes r =? 0) = negb (accepted r).
Proof.
  unfold accepted.
  destruct (OI_SUCCESS _), (_ =? 240), (_ =? 0); reflexivity.
Qed.

(** [hfp_msbc_decoder_decode_packet], one field at a time. *)
Lemma decode_packet_value s i_buf o_buf :
  value (hfp_msbc_decoder_decode_packet i_buf o_buf s)
  = if accepted (frame_reply s i_buf) then (true, addr_decode_buf)
    else (false, o_buf).
Proof.
  unfold hfp_msbc_decoder_decode_packet, bind, call_DecodeFrame; cbn.
  fold (frame_reply s i_buf). rewrite line77_test.
  destruct (accepted _); reflexivity.
Qed.

Lemma decode_packet_state s i_buf o_buf :
  state (hfp_msbc_decoder_decode_packet i_buf o_buf s)
  = {| decoder_context := decode_context (frame_reply s i_buf);
       context_data := decode_data (frame_reply s i_buf);
       decode_buf := decode_pcmData (frame_reply s i_buf) |}.
Proof.
  unfold hfp_msbc_decoder_decode_packet, bind, call_DecodeFrame; cbn.
  fold (frame_reply s i_buf). rewrite line77_test.
  destruct (accepted _); reflexivity.
Qed.

Lemma decode_packet_events s i_buf o_buf :
  events (hfp_msbc_decoder_decode_packet i_buf o_buf s)
  = EvDecodeFrame addr_decoder_context i_buf 60 addr_decode_buf 240
    :: (if accepted (frame_reply s i_buf) then []
        else [EvLogError "Decoding failure: %d, %lu, %lu"
                [decode_status (frame_reply s i_buf);
                 decode_pcmBytes (frame_reply s i_buf);
                 decode_frameBytes (frame_reply s i_buf)]]).
Proof.
  unfold hfp_msbc_decoder_decode_packet, bind, call_DecodeFrame; cbn.
  fold (frame_reply s i_buf). rewrite line77_test.
  destruct (accepted _); reflexivity.
Qed.

Lemma accepted_true (r : DecodeReply) :
  accepted r = true <->
  OI_SUCCESS (decode_status r) = true /\ decode_frameBytes r = 0
  /\ decode_pcmBytes r = 240.
Proof.
  unfold accepted. rewrite !andb_true_iff, !Z.eqb_eq. tauto.
Qed.

Lemma accepted_false (r : DecodeReply) :
  accepted r = false <->
  OI_SUCCESS (decode_status r) = false \/ decode_frameBytes r <> 0
  \/ decode_pcmBytes r <> 240.
Proof.
  unfold accepted. rewrite !andb_false_iff, !Z.eqb_neq. tauto.
Qed.

(** [hfp_msbc_decoder_init], by the outcome of its two engine calls. *)
Lemma init_value s :
  value (hfp_msbc_decoder_init s)
  = OI_SUCCESS (reset_status (reset_reply s))
    && OI_SUCCESS (configure_status (configure_reply s)).
Proof.
  unfold hfp_msbc_decoder_init, bind, call_DecoderReset; cbn.
  fold (reset_reply s).
  destruct (OI_SUCCESS (reset_status (reset_reply s))); cbn; [|reflexivity].
  fold (configure_reply s).
  destruct (OI_SUCCESS (configure_status (configure_reply s))); reflexivity.
Qed.

Lemma init_engine_calls s :
  engine_calls (events (hfp_msbc_decoder_init s))
  = EvDecoderReset addr_decoder_context addr_context_data
      sizeof_context_data 1 1 false
    :: (if OI_SUCCESS (reset_status (reset_reply s))
        then [EvDecoderConfigureMSbc addr_decoder_context] else []).
Proof.
  unfold hfp_msbc_decoder_init, bind, call_DecoderReset; cbn.
  fold (reset_reply s).
  destruct (OI_SUCCESS (reset_status (reset_reply s))); cbn; [|reflexivity].
  fold (configure_reply s).
  destruct (OI_SUCCESS (configure_status (configure_reply s))); reflexivity.
Qed.

(** C1. [hfp_msbc_decoder_decode_packet] returns true if and only if,
    after its engine decode, the status is a success status, the
    remaining-input count is 0 and the produced-output count is 240; it
    returns false as soon as one of the three fails, whatever the
    status. *)
Theorem decode_packet_success_iff s i_buf o_buf :
  let r := frame_reply s i_buf in
  let ok := fst (value (hfp_msbc_decoder_decode_packet i_buf o_buf s)) in
  (ok = true <->
     OI_SUCCESS (decode_status r) = true /\ decode_frameBytes r = 0
     /\ decode_pcmBytes r = 240)
  /\ (ok = false <->
        OI_SUCCESS (decode_status r) = false \/ decode_frameBytes r <> 0
        \/ decode_pcmBytes r <> 240).
Proof.
  intros r ok. subst ok. rewrite decode_packet_value. fold r.
  rewrite <- accepted_true, <- accepted_false.
  case (accepted r); cbn; intuition congruence.
Qed.

(** C2. Whatever the caller's buffer is, and however long, the one
    engine call of [hfp_msbc_decoder_decode_packet] receives that buffer
    with the input length 60 and the output buffer [decode_buf] with the
    capacity 240, which is the size of 120 16-bit samples; the wrapper
    makes no test of its own on the buffer. *)
Theorem decode_packet_engine_arguments s (i_buf : list uint8_t) o_buf :
  engine_calls (events (hfp_msbc_decoder_decode_packet i_buf o_buf s))
  = [EvDecodeFrame addr_decoder_context i_buf HFP_MSBC_PKT_LEN
       addr_decode_buf sizeof_decode_buf]
  /\ HFP_MSBC_PKT_LEN = 60
  /\ sizeof_decode_buf = 240
  /\ sizeof_decode_buf = sizeof_int16_t * 120
  /\ value (hfp_msbc_decoder_decode_packet i_buf o_buf s)
     = (if accepted (frame_reply s i_buf) then (true, addr_decode_buf)
        else (false, o_buf)).
Proof.
  rewrite decode_packet_events, decode_packet_value.
  repeat split. now destruct (accepted _).
Qed.

(** C3. [hfp_msbc_decoder_init] returns true if and only if the reset
    and then the mSBC configuration both report success; it returns
    false when either is rejected; the reset is the first engine call,
    and the configuration is called after it only when the reset
    succeeded. *)
Theorem init_success_iff s :
  let ok := value (hfp_msbc_decoder_init s) in
  let reset_ok := OI_SUCCESS (reset_status (reset_reply s)) in
  let configure_ok := OI_SUCCESS (configure_status (configure_reply s)) in
  (ok = true <-> reset_ok = true /\ configure_ok = true)
  /\ (ok = false <-> reset_ok = false \/ configure_ok = false)
  /\ engine_calls (events (hfp_msbc_decoder_init s))
     = (if reset_ok
        then [EvDecoderReset addr_decoder_context addr_context_data
                sizeof_context_data 1 1 false;
              EvDecoderConfigureMSbc addr_decoder_context]
        else [EvDecoderReset addr_decoder_context addr_context_data
                sizeof_context_data 1 1 false])
  /\ count_events is_DecoderConfigureMSbc (events (hfp_msbc_decoder_init s))
     = (if reset_ok then 1%nat else 0%nat).
Proof.
  intros ok reset_ok configure_ok. subst ok.
  rewrite init_value. fold reset_ok configure_ok.
  split; [apply andb_true_iff|]. split; [apply andb_false_iff|].
  split.
  - rewrite init_engine_calls. fold reset_ok. now destruct reset_ok.
  - unfold hfp_msbc_decoder_init, bind, call_DecoderReset; cbn.
    fold (reset_reply s). fold reset_ok.
    destruct reset_ok; cbn; [|reflexivity].
    now destruct (OI_SUCCESS (configure_status _)).
Qed.


(** C10. When [hfp_msbc_decoder_decode_packet] returns false, [*o_buf]
    holds the value it held on entry. *)
Theorem decode_packet_failure_keeps_o_buf s i_buf o_buf :
  fst (value (hfp_msbc_decoder_decode_packet i_buf o_buf s)) = false ->
  snd (value (hfp_msbc_decoder_decode_packet i_buf o_buf s)) = o_buf.
Proof.
  rewrite decode_packet_value.
  destruct (accepted (frame_reply s i_buf)); cbn; [discriminate | trivial].
Qed.
End WrapperFacts.

(** ** The object representation *)

Section Representation.
Context {D : SbcDecls}.

Lemma byte_of_zero k : byte_of 0 k = 0.
Proof. unfold byte_of. now rewrite Z.shiftr_0_l. Qed.

Lemma flat_map_replicate {A B} (f : A -> list B) (x : A) (y : B) k n :
  f x = replicate k y ->
  flat_map f (replicate n x) = replicate (n * k) y.
Proof.
  intros Hf. induction n as [|n IH]; cbn; [reflexivity|].
  now rewrite IH, Hf, replicate_add.
Qed.

Lemma length_flat_map_const {A B} (f : A -> list B) k (l : list A) :
  (forall x, List.length (f x) = k) ->
  List.length (flat_map f l) = (List.length l * k)%nat.
Proof.
  intros Hf. induction l as [|x l IH]; cbn; [reflexivity|].
  now rewrite length_app, IH, Hf.
Qed.

Lemma length_decode_buf_bytes (s : tHFP_MSBC_DECODER) :
  List.length (decode_buf_bytes s) = 240%nat.
Proof.
  unfold decode_buf_bytes.
  rewrite (length_flat_map_const _ 2) by reflexivity.
  now rewrite length_vec_to_list.
Qed.

Lemma object_bytes_zeroed :
  object_bytes zeroed = replicate (Z.to_nat sizeof_hfp_msbc_decoder) 0.
Proof.
  unfold object_bytes, decode_buf_bytes, zeroed; cbn [decoder_context
    context_data decode_buf].
  rewrite !vec_to_list_replicate.
  rewrite (flat_map_replicate bytes_of_uint32 0 0 4),
          (flat_map_replicate bytes_of_int16 0 0 2)
    by (cbv [bytes_of_uint32 bytes_of_int16]; now rewrite !byte_of_zero).
  rewrite <- !replicate_add. f_equal.
  unfold sizeof_hfp_msbc_decoder, sizeof_context_data, sizeof_decode_buf,
    sizeof_uint32_t, sizeof_int16_t.
  lia.
Qed.
End Representation.

Section LifecycleFacts.
Context {D : SbcDecls} {E : SbcEngine}.

(** C4. [hfp_msbc_decoder_cleanup] leaves, from every state, the object
    with all its bytes zero: context, scratch memory and output buffer.
    A second cleanup, or a cleanup of the never-initialised object,
    gives that same state. *)
Theorem cleanup_zeroes_idempotent (s : tHFP_MSBC_DECODER) :
  let s' := state (hfp_msbc_decoder_cleanup s) in
  object_bytes s' = replicate (Z.to_nat sizeof_hfp_msbc_decoder) 0
  /\ decoder_context s' = vreplicate sizeof_decoder_context 0
  /\ context_data s' = vreplicate context_data_len 0
  /\ decode_buf s' = vreplicate decode_buf_len 0
  /\ state (hfp_msbc_decoder_cleanup s') = s'
  /\ state (hfp_msbc_decoder_cleanup zeroed) = s'
  /\ events (hfp_msbc_decoder_cleanup s) = [].
Proof.
  intros s'. subst s'. cbn.
  split; [apply object_bytes_zeroed | repeat split].
Qed.

(** C7. On success the pointer stored in [*o_buf] is the address of the
    decoder's own [decode_buf]: what the caller reads through it are the
    240 bytes of the samples the engine left there, nothing is copied;
    after any further call the same pointer shows the buffer as that call
    left it, and a further successful call stores the same address. *)
Theorem decode_packet_output_alias s i_buf o_buf :
  fst (value (hfp_msbc_decoder_decode_packet i_buf o_buf s)) = true ->
  let r := hfp_msbc_decoder_decode_packet i_buf o_buf s in
  snd (value r) = addr_decode_buf
  /\ load (state r) (snd (value r)) = Some (decode_buf_bytes (state r))
  /\ decode_buf (state r) = decode_pcmData (frame_reply s i_buf)
  /\ List.length (decode_buf_bytes (state r)) = 240%nat
  /\ forall i_buf' o_buf',
       let r' := hfp_msbc_decoder_decode_packet i_buf' o_buf' (state r) in
       load (state r') (snd (value r)) = Some (decode_buf_bytes (state r'))
       /\ (fst (value r') = true -> snd (value r') = snd (value r)).
Proof.
  intros Hok r.
  assert (Hptr : snd (value r) = addr_decode_buf).
  { subst r. rewrite decode_packet_value in Hok |- *.
    destruct (accepted _); [reflexivity | discriminate]. }
  rewrite Hptr. split; [reflexivity|]. split; [reflexivity|].
  split; [subst r; now rewrite decode_packet_state|].
  split; [apply length_decode_buf_bytes|].
  intros i_buf' o_buf' r'. split; [reflexivity|].
  subst r'. rewrite decode_packet_value.
  destruct (accepted _); [reflexivity | discriminate].
Qed.

(** C9. Cleanup, initialise, decode one packet: the results of the
    initialisation and of the decode, the pointer stored on success, and
    the whole object afterwards, so the 240 output bytes too, are the
    same from any two starting states, and the same again when the
    sequence is repeated on the state the first run left. *)
Theorem fresh_decode_repeatable (s1 s2 : tHFP_MSBC_DECODER) i_buf o1 o2 :
  let r1 := fresh_decode i_buf o1 s1 in
  let r2 := fresh_decode i_buf o2 s2 in
  let r3 := fresh_decode i_buf o2 (state r1) in
  fst (value r1) = fst (value r2)
  /\ fst (snd (value r1)) = fst (snd (value r2))
  /\ state r1 = state r2
  /\ decode_buf_bytes (state r1) = decode_buf_bytes (state r2)
  /\ List.length (decode_buf_bytes (state r1)) = 240%nat
  /\ value r3 = value r2
  /\ decode_buf_bytes (state r3) = decode_buf_bytes (state r1).
Proof.
  intros r1 r2 r3.
  assert (Hst : forall o o' s s',
             state (fresh_decode i_buf o s) = state (fresh_decode i_buf o' s')).
  { intros. unfold fresh_decode, bind, hfp_msbc_decoder_cleanup, ret.
    cbn [state value]. now rewrite !decode_packet_state. }
  assert (Hval : forall o s s',
             value (fresh_decode i_buf o s) = value (fresh_decode i_buf o s')).
  { intros. reflexivity. }
  assert (Hok : forall o o' s s',
             fst (snd (value (fresh_decode i_buf o s)))
             = fst (snd (value (fresh_decode i_buf o' s')))).
  { intros. unfold fresh_decode, bind, hfp_msbc_decoder_cleanup, ret.
    cbn [state value snd]. rewrite !decode_packet_value.
    now destruct (accepted _). }
  subst r1 r2 r3.
  split; [reflexivity|]. split; [apply Hok|]. split; [apply Hst|].
  split; [now rewrite (Hst o1 o2 s1 s2)|].
  split; [apply length_decode_buf_bytes|].
  split; [apply Hval|]. f_equal. apply Hst.
Qed.

End LifecycleFacts.

(** ** Concrete runs with the sample engine *)

(** C10 at a packet without syncword: the decode fails and the caller's
    pointer is as before. *)
Lemma decode_packet_failure_keeps_o_buf_witness :
  fst (value (@hfp_msbc_decoder_decode_packet Sample.decls Sample.engine
                Sample.noise (addr_caller 5) zeroed)) = false
  /\ snd (value (@hfp_msbc_decoder_decode_packet Sample.decls Sample.engine
                   Sample.noise (addr_caller 5) zeroed)) = addr_caller 5.
Proof.
  split; [reflexivity|].
  apply (@decode_packet_failure_keeps_o_buf Sample.decls Sample.engine).
  reflexivity.
Defined.

(** C7 at a good packet after a successful initialisation. *)
Lemma decode_packet_output_alias_witness :
  fst (value (@hfp_msbc_decoder_decode_packet Sample.decls Sample.engine
                Sample.packet NULL Sample.ready)) = true
  /\ snd (value (@hfp_msbc_decoder_decode_packet Sample.decls Sample.engine
                   Sample.packet NULL Sample.ready)) = addr_decode_buf
  /\ List.length
       (decode_buf_bytes
          (state (@hfp_msbc_decoder_decode_packet Sample.decls Sample.engine
                    Sample.packet NULL Sample.ready))) = 240%nat.
Proof.
  assert (Hok : fst (value (@hfp_msbc_decoder_decode_packet Sample.decls
                              Sample.engine Sample.packet NULL Sample.ready))
                = true) by reflexivity.
  split; [exact Hok|].
  destruct (@decode_packet_output_alias Sample.decls Sample.engine
              Sample.ready Sample.packet NULL Hok) as (Hp & _ & _ & Hlen & _).
  split; [exact Hp | exact Hlen].
Defined.


(** ** Further properties of the three entry points *)

Section EntryPointFacts.
Context {D : SbcDecls} {E : SbcEngine}.

(** All the events of [hfp_msbc_decoder_init]. *)
Lemma init_events s :
  events (hfp_msbc_decoder_init s)
  = EvDecoderReset addr_decoder_context addr_context_data
      sizeof_context_data 1 1 false
    :: (if OI_SUCCESS (reset_status (reset_reply s))
        then EvDecoderConfigureMSbc addr_decoder_context
             :: (if OI_SUCCESS (configure_status (configure_reply s))
                 then []
                 else [EvLogError
                         "%s: OI_CODEC_SBC_DecoderConfigureMSbc failed with error code %d"
                         [configure_status (configure_reply s)]])
        else [EvLogError
                "%s: OI_CODEC_SBC_DecoderReset failed with error code %d"
                [reset_status (reset_reply s)]]).
Proof.
  unfold hfp_msbc_decoder_init, bind, call_DecoderReset; cbn.
  fold (reset_reply s).
  destruct (OI_SUCCESS (reset_status (reset_reply s))); cbn; [|reflexivity].
  fold (configure_reply s).
  destruct (OI_SUCCESS (configure_status (configure_reply s))); reflexivity.
Qed.

(** The state [hfp_msbc_decoder_init] leaves: what the last engine call it
    made left in the context and the scratch memory. *)
Lemma init_state s :
  state (hfp_msbc_decoder_init s)
  = if OI_SUCCESS (reset_status (reset_reply s))
    then {| decoder_context := configure_context (configure_reply s);
            context_data := configure_data (configure_reply s);
            decode_buf := decode_buf s |}
    else {| decoder_context := reset_context (reset_reply s);
            context_data := reset_data (reset_reply s);
            decode_buf := decode_buf s |}.
Proof.
  unfold hfp_msbc_decoder_init, bind, call_DecoderReset; cbn.
  fold (reset_reply s).
  destruct (OI_SUCCESS (reset_status (reset_reply s))); cbn; [|reflexivity].
  fold (configure_reply s).
  destruct (OI_SUCCESS (configure_status (configure_reply s))); reflexivity.
Qed.

(** X6. The decoder state is carried from one decode to the next, whether
    the first one succeeded or failed: the engine call of the second
    [hfp_msbc_decoder_decode_packet] receives the context, the scratch
    memory and the output buffer exactly as the engine left them in the
    first, and the second result is the verdict on that reply. *)
Theorem decode_twice_state_carried s i1 o1 i2 o2 :
  let r1 := frame_reply s i1 in
  let r2 := OI_CODEC_SBC_DecodeFrame (decode_context r1) (decode_data r1) i2
              HFP_MSBC_PKT_LEN (decode_pcmData r1) sizeof_decode_buf in
  let second := hfp_msbc_decoder_decode_packet i2 o2
                  (state (hfp_msbc_decoder_decode_packet i1 o1 s)) in
  fst (value second) = accepted r2
  /\ decoder_context (state second) = decode_context r2
  /\ context_data (state second) = decode_data r2
  /\ decode_buf (state second) = decode_pcmData r2.
Proof.
  intros r1 r2 second. subst second r2 r1.
  rewrite decode_packet_value, !decode_packet_state.
  unfold frame_reply; cbn [decoder_context context_data decode_buf].
  split; [now destruct (accepted _) | repeat split].
Qed.

(** X7. [hfp_msbc_decoder_decode_packet] never reads [*o_buf]: the
    returned flag, the decoder state, the events and, on success, the
    pointer stored are the same whatever the variable held on entry. *)
Theorem decode_packet_ignores_o_buf s i_buf o1 o2 :
  let a := hfp_msbc_decoder_decode_packet i_buf o1 s in
  let b := hfp_msbc_decoder_decode_packet i_buf o2 s in
  fst (value a) = fst (value b)
  /\ state a = state b
  /\ events a = events b
  /\ (if fst (value a) then snd (value a) = snd (value b)
      else snd (value a) = o1 /\ snd (value b) = o2).
Proof.
  intros a b. subst a b.
  rewrite !decode_packet_value, !decode_packet_state, !decode_packet_events.
  destruct (accepted _); cbn; repeat split.
Qed.

(** X8. [hfp_msbc_decoder_init] does not touch the output buffer, whether
    it succeeds or fails; so after a cleanup and an initialisation the
    buffer reads as 240 zero bytes until the first decode. *)
Theorem init_leaves_output_buffer s :
  decode_buf (state (hfp_msbc_decoder_init s)) = decode_buf s
  /\ decode_buf_bytes (state (hfp_msbc_decoder_init s)) = decode_buf_bytes s
  /\ decode_buf_bytes
       (state (hfp_msbc_decoder_init (state (hfp_msbc_decoder_cleanup s))))
     = replicate 240 0.
Proof.
  assert (H : forall t, decode_buf (state (hfp_msbc_decoder_init t))
                        = decode_buf t).
  { intros t. rewrite init_state. now destruct (OI_SUCCESS _). }
  split; [apply H|]. unfold decode_buf_bytes. rewrite !H.
  split; [reflexivity|]. cbn [hfp_msbc_decoder_cleanup state zeroed decode_buf].
  rewrite vec_to_list_replicate.
  now rewrite (flat_map_replicate bytes_of_int16 0 0 2) by reflexivity.
Qed.
End EntryPointFacts.

(** ** Sequences of calls *)

Section SequenceFacts.
Context {D : SbcDecls} {E : SbcEngine}.

Lemma count_events_app p l1 l2 :
  count_events p (l1 ++ l2) = (count_events p l1 + count_events p l2)%nat.
Proof. unfold count_events. now rewrite List.filter_app, length_app. Qed.

(** [run] on a non-empty sequence, one field at a time. *)
Lemma run_cons_value c rest out s :
  value (run (c :: rest) out s)
  = (fst (value (api_call c out s))
       :: fst (value (run rest (snd (value (api_call c out s)))
                        (state (api_call c out s)))),
     snd (value (run rest (snd (value (api_call c out s)))
                   (state (api_call c out s))))).
Proof. reflexivity. Qed.

Lemma run_cons_state c rest out s :
  state (run (c :: rest) out s)
  = state (run rest (snd (value (api_call c out s)))
             (state (api_call c out s))).
Proof. reflexivity. Qed.

Lemma run_cons_events c rest out s :
  events (run (c :: rest) out s)
  = events (api_call c out s)
    ++ events (run rest (snd (value (api_call c out s)))
                 (state (api_call c out s))).
Proof.
  change (events (run (c :: rest) out s))
    with (events (api_call c out s)
          ++ events (run rest (snd (value (api_call c out s)))
                       (state (api_call c out s))) ++ []).
  now rewrite app_nil_r.
Qed.

(** One call, one field at a time. *)
Lemma api_call_events c out s :
  events (api_call c out s)
  = match c with
    | ApiInit => events (hfp_msbc_decoder_init s)
    | ApiCleanup => []
    | ApiDecode i_buf => events (hfp_msbc_decoder_decode_packet i_buf out s)
    end.
Proof.
  destruct c; unfold api_call, bind, ret; cbn [events value state];
    [apply app_nil_r | reflexivity | apply app_nil_r].
Qed.

Lemma api_call_value c out s :
  value (api_call c out s)
  = match c with
    | ApiInit => (Some (value (hfp_msbc_decoder_init s)), out)
    | ApiCleanup => (None, out)
    | ApiDecode i_buf =>
        (Some (accepted (frame_reply s i_buf)),
         if accepted (frame_reply s i_buf) then addr_decode_buf else out)
    end.
Proof.
  destruct c; unfold api_call, bind, ret; cbn [events value state];
    try reflexivity.
  rewrite decode_packet_value. now destruct (accepted _).
Qed.

Lemma api_call_state c out s :
  state (api_call c out s)
  = match c with
    | ApiInit => state (hfp_msbc_decoder_init s)
    | ApiCleanup => state (hfp_msbc_decoder_cleanup s)
    | ApiDecode i_buf => state (hfp_msbc_decoder_decode_packet i_buf out s)
    end.
Proof. destruct c; reflexivity. Qed.

(** A call logs one line when it returns false and none otherwise. *)
Lemma api_call_logs c out s :
  count_events is_log (events (api_call c out s))
  = if is_failure (fst (value (api_call c out s))) then 1%nat else 0%nat.
Proof.
  rewrite api_call_events, api_call_value. destruct c; cbn [fst is_failure].
  - rewrite init_events, init_value.
    destruct (OI_SUCCESS (reset_status _)); [|reflexivity].
    now destruct (OI_SUCCESS (configure_status _)).
  - reflexivity.
  - rewrite decode_packet_events. now destruct (accepted _).
Qed.


Lemma in_order_app prev l1 l2 :
  in_order prev (l1 ++ l2)
  = in_order prev l1 && in_order (last_event prev l1) l2.
Proof.
  revert prev. induction l1 as [|e l1 IH]; intros prev; cbn; [reflexivity|].
  now rewrite IH, andb_assoc.
Qed.

(** The events of one call are in order after any event. *)
Lemma api_call_in_order c out s prev :
  in_order prev (events (api_call c out s)) = true.
Proof.
  rewrite api_call_events. destruct c.
  - rewrite init_events.
    destruct (OI_SUCCESS (reset_status _));
      [destruct (OI_SUCCESS (configure_status _))|]; reflexivity.
  - reflexivity.
  - rewrite decode_packet_events. now destruct (accepted _).
Qed.

(** X1. Over any sequence of calls, from any state, the number of error
    lines logged is the number of calls that returned false: each failed
    initialisation or decode logs exactly one line, a successful call and
    a cleanup log nothing. *)
Theorem run_logs_count_failures calls out s :
  count_events is_log (events (run calls out s))
  = List.length (List.filter is_failure (fst (value (run calls out s)))).
Proof.
  revert out s. induction calls as [|c rest IH]; intros out s.
  - reflexivity.
  - rewrite run_cons_events, run_cons_value, count_events_app.
    rewrite api_call_logs, IH. cbn [fst List.filter].
    destruct (is_failure _); cbn [List.length]; lia.
Qed.


(** X3. The wrapper stores nothing but the address of [decode_buf] in the
    caller's variable: after any sequence of calls the variable holds that
    address if some decode of the sequence returned true, and its initial
    value otherwise; a later failure does not reset it. *)
Theorem run_out_pointer calls out s :
  snd (value (run calls out s))
  = if existsb decode_succeeded
         (combine calls (fst (value (run calls out s))))
    then addr_decode_buf else out.
Proof.
  revert out s. induction calls as [|c rest IH]; intros out s.
  - reflexivity.
  - rewrite run_cons_value. cbn [fst snd combine existsb].
    rewrite IH, api_call_value.
    destruct c; cbn [fst snd decode_succeeded orb]; try reflexivity.
    destruct (accepted _); cbn [orb]; [|reflexivity].
    now destruct (existsb _ _).
Qed.

(** X5. In the events of any sequence of calls, an mSBC configuration of
    the engine comes immediately after a reset, and a log line comes
    immediately after an engine call: the engine is never configured
    without having just been reset, and nothing is logged except right
    after the engine call that failed. *)
Theorem run_events_in_order calls out s :
  in_order None (events (run calls out s)) = true.
Proof.
  generalize (@None Event) as prev.
  revert out s. induction calls as [|c rest IH]; intros out s prev.
  - reflexivity.
  - rewrite run_cons_events, in_order_app, api_call_in_order, IH.
    reflexivity.
Qed.
End SequenceFacts.
